(** * QUADS MCP tools: a shallow embedding of [quads_mcp/tools/quads_tools.py]

    Every tool of the module is a coroutine of the same shape: resolve the
    base URL from the session configuration, build one outbound HTTP
    request, turn the response into a dictionary, and convert any
    [Exception] into an error dictionary, reporting to the request-scoped
    diagnostics handle [ctx] on the way.

    The embedding keeps that shape.  A tool is a computation in a small
    monad that threads a trace (the calls made on the diagnostics handle
    and the HTTP requests issued) and may raise a Python exception.  The
    collaborators that are not part of the module (the request context,
    the HTTP client, the remote service) are an environment record.

    Conventions:
    - a Python [str] is a [string] read as a sequence of code points
      below 256;
    - a Python [dict] is an association list in insertion order;
    - the trace records each call made on the diagnostics handle; a handle
      that is present accepts every message;
    - the literal [30.0] of the [timeout] keyword is the integer 30. *)

From Stdlib Require Import String Ascii List ZArith NArith Bool Lia.
From Stdlib Require Import DecimalString.
Import ListNotations.

Set Warnings "-register-all".

Local Open Scope string_scope.
Local Open Scope Z_scope.

(** ** Python values *)

Module Py.

(** The values a decoded JSON body, a configuration mapping or a returned
    dictionary is made of.  A float is carried as its printed text. *)
Inductive PyVal : Type :=
| PyNone
| PyBool (b : bool)
| PyInt (z : Z)
| PyFloat (text : string)
| PyStr (s : string)
| PyList (l : list PyVal)
| PyDict (d : list (string * PyVal)).

Definition Dict := list (string * PyVal).

(** [d.get(k)] *)
Fixpoint dict_get (d : Dict) (k : string) : option PyVal :=
  match d with
  | [] => None
  | (k', v) :: d' => if String.eqb k' k then Some v else dict_get d' k
  end.

(** [d.get(k, default)] *)
Definition dict_get_default (d : Dict) (k : string) (default : PyVal) : PyVal :=
  match dict_get d k with
  | Some v => v
  | None => default
  end.

(** [d[k] = v]: an existing key keeps its position, a new key goes last. *)
Fixpoint dict_set (d : Dict) (k : string) (v : PyVal) : Dict :=
  match d with
  | [] => [(k, v)]
  | (k', v') :: d' =>
      if String.eqb k' k then (k', v) :: d' else (k', v') :: dict_set d' k v
  end.


Definition keys (d : Dict) : list string := map fst d.

(** Truthiness of an optional string argument: [None] and [""] are falsy. *)
Definition truthy (a : option string) : bool :=
  match a with
  | None => false
  | Some s => negb (String.eqb s "")
  end.

(** [str(n)] for an [int]. *)
Definition str_int (n : Z) : string := NilZero.string_of_int (Z.to_int n).

(** [str(b)] for a [bool]. *)
Definition str_bool (b : bool) : string := if b then "True" else "False".

(** [c.lower()] on one code point below 256. *)
Definition lower_char (c : ascii) : ascii :=
  let n := N_of_ascii c in
  if ((65 <=? n) && (n <=? 90))%N then ascii_of_N (n + 32)
  else if ((192 <=? n) && (n <=? 222) && negb (n =? 215))%N then ascii_of_N (n + 32)
  else c.

(** [s.lower()] *)
Fixpoint lower (s : string) : string :=
  match s with
  | EmptyString => EmptyString
  | String c s' => String (lower_char c) (lower s')
  end.

Definition chr (n : N) : ascii := ascii_of_N n.
Definition backslash : ascii := chr 92.
Definition single_quote : ascii := chr 39.
Definition double_quote : ascii := chr 34.

Fixpoint mem_char (c : ascii) (s : string) : bool :=
  match s with
  | EmptyString => false
  | String c' s' => Ascii.eqb c c' || mem_char c s'
  end.

Definition hex_digit (n : N) : ascii :=
  match String.get (N.to_nat n) "0123456789abcdef" with
  | Some c => c
  | None => "0"%char
  end.

Definition hex_escape (n : N) : string :=
  String backslash (String "x" (String (hex_digit (n / 16))
    (String (hex_digit (n mod 16)) EmptyString))).

(** [repr] of one code point inside a literal delimited by [quote]. *)
Definition repr_char (quote c : ascii) : string :=
  let n := N_of_ascii c in
  if Ascii.eqb c backslash then String backslash (String backslash EmptyString)
  else if Ascii.eqb c quote then String backslash (String quote EmptyString)
  else if (n =? 9)%N then String backslash "t"
  else if (n =? 10)%N then String backslash "n"
  else if (n =? 13)%N then String backslash "r"
  else if ((n <? 32) || ((127 <=? n) && (n <=? 160)) || (n =? 173))%N
       then hex_escape n
  else String c EmptyString.

Fixpoint repr_chars (quote : ascii) (s : string) : string :=
  match s with
  | EmptyString => EmptyString
  | String c s' => repr_char quote c ++ repr_chars quote s'
  end.

(** [repr(s)] for a [str]: single quotes, unless the text holds a single
    quote and no double quote. *)
Definition repr_str (s : string) : string :=
  let quote :=
    if mem_char single_quote s && negb (mem_char double_quote s)
    then double_quote else single_quote in
  String quote (repr_chars quote s ++ String quote EmptyString).

(** [sep.join(l)] *)
Fixpoint join (sep : string) (l : list string) : string :=
  match l with
  | [] => ""
  | [x] => x
  | x :: l' => x ++ sep ++ join sep l'
  end.

(** [repr(v)] *)
Fixpoint repr (v : PyVal) : string :=
  match v with
  | PyNone => "None"
  | PyBool b => str_bool b
  | PyInt z => str_int z
  | PyFloat text => text
  | PyStr s => repr_str s
  | PyList l => "[" ++ join ", " (map repr l) ++ "]"
  | PyDict d =>
      "{" ++ join ", " (map (fun kv => repr_str (fst kv) ++ ": " ++ repr (snd kv)) d)
          ++ "}"
  end.

(** [str(v)], as an f-string field formats it. *)
Definition str (v : PyVal) : string :=
  match v with
  | PyStr s => s
  | _ => repr v
  end.

(** [type(v).__name__] *)
Definition type_name (v : PyVal) : string :=
  match v with
  | PyNone => "NoneType"
  | PyBool _ => "bool"
  | PyInt _ => "int"
  | PyFloat _ => "float"
  | PyStr _ => "str"
  | PyList _ => "list"
  | PyDict _ => "dict"
  end.

(** The value of an optional string argument as a Python object. *)
Definition of_option (a : option string) : PyVal :=
  match a with
  | None => PyNone
  | Some s => PyStr s
  end.

End Py.
Import Py.

(** ** Collaborators *)

Inductive Method : Type := GET | POST.

(** One call on an [httpx.AsyncClient]: the method, the URL, and the
    keyword arguments [params], [auth] and [timeout]. *)
Record Request : Type := mkRequest {
  method : Method;
  url : string;
  params : option Dict;
  auth : option (string * string);
  timeout : Z
}.

(** What the tools read of an [httpx.Response]: the status code, the text
    of the [HTTPStatusError] that [raise_for_status] builds for it, and
    what [json()] does: raise with a message or return the decoded body. *)
Record Response : Type := mkResponse {
  status_code : Z;
  status_error_text : string;
  json_result : string + PyVal
}.

(** [Response.is_success] *)
Definition is_success (r : Response) : bool :=
  (200 <=? status_code r) && (status_code r <=? 299).

(** The outcome of awaiting [client.get] or [client.post]: an exception of
    the transport (timeout, DNS failure, refused connection) carrying its
    message, or a response. *)
Inductive HttpOutcome : Type :=
| HttpRaises (message : string)
| HttpResponse (r : Response).

(** The world outside the module.  [request_config] is
    [mcp.get_request_context().lifespan_context.config]: the lookup raises
    with a message, or yields the configuration mapping of [AppContext]. *)
Record Env : Type := mkEnv {
  request_config : string + Dict;
  http : Request -> HttpOutcome
}.

(** The diagnostics handle the protocol layer injects. *)
Inductive Context : Type := RequestContext.

(** ** The tool monad *)

Inductive Level : Type := INFO | ERROR.

Record Trace : Type := mkTrace {
  log : list (Level * string);
  sent : list Request
}.

Definition empty_trace : Trace := {| log := []; sent := [] |}.

(** The exceptions the handlers tell apart: [httpx.HTTPStatusError], with
    the status code of its response, and every other [Exception]. *)
Inductive PyException : Type :=
| HTTPStatusError (text : string) (status : Z)
| OtherException (text : string).

(** [str(e)] *)
Definition str_exc (e : PyException) : string :=
  match e with
  | HTTPStatusError text _ => text
  | OtherException text => text
  end.

Inductive Completion (A : Type) : Type :=
| Return (a : A)
| Raise (e : PyException).
Arguments Return {A} a.
Arguments Raise {A} e.

Definition Tool (A : Type) : Type := Trace -> Trace * Completion A.

Definition ret {A} (a : A) : Tool A := fun t => (t, Return a).

Definition raise {A} (e : PyException) : Tool A := fun t => (t, Raise e).

Definition bind {A B} (m : Tool A) (k : A -> Tool B) : Tool B :=
  fun t =>
    match m t with
    | (t', Return a) => k a t'
    | (t', Raise e) => (t', Raise e)
    end.

(** [try: body  except Exception as e: handler] *)
Definition try_except {A} (body : Tool A) (handler : PyException -> Tool A) : Tool A :=
  fun t =>
    match body t with
    | (t', Return a) => (t', Return a)
    | (t', Raise e) => handler e t'
    end.

Declare Scope tool_scope.
Delimit Scope tool_scope with tool.
Notation "x <- m ;; k" := (bind m (fun x => k))
  (at level 61, m at next level, right associativity) : tool_scope.
Notation "m ;; k" := (bind m (fun _ => k))
  (at level 61, right associativity) : tool_scope.
Local Open Scope tool_scope.

Definition emit (l : Level) (msg : string) : Tool unit :=
  fun t => ({| log := log t ++ [(l, msg)]; sent := sent t |}, Return tt).

Definition attribute_error (v : PyVal) (attr : string) : PyException :=
  OtherException ("'" ++ type_name v ++ "' object has no attribute '" ++ attr ++ "'").

(** [ctx.info(msg)]; on an absent handle the attribute lookup raises. *)
Definition ctx_info (ctx : option Context) (msg : string) : Tool unit :=
  match ctx with
  | None => raise (attribute_error PyNone "info")
  | Some _ => emit INFO msg
  end.

(** [ctx.error(msg)] *)
Definition ctx_error (ctx : option Context) (msg : string) : Tool unit :=
  match ctx with
  | None => raise (attribute_error PyNone "error")
  | Some _ => emit ERROR msg
  end.

Definition default_base_url : string := "https://quads.example.com/api/v3".

(** [v.get(k, default)] on an arbitrary object: only a mapping has [get]. *)
Definition py_get (v : PyVal) (k : string) (default : PyVal) : Completion PyVal :=
  match v with
  | PyDict d => Return (dict_get_default d k default)
  | _ => Raise (attribute_error v "get")
  end.

(** The three lines every tool starts with:
    [app_ctx = mcp.get_request_context().lifespan_context],
    [config = app_ctx.config],
    [base_url = config.get('quads', {}).get('base_url', <default>)]. *)
Definition lookup_base_url (env : Env) : Completion PyVal :=
  match request_config env with
  | inl message => Raise (OtherException message)
  | inr config =>
      py_get (dict_get_default config "quads" (PyDict [])) "base_url"
             (PyStr default_base_url)
  end.

Definition resolve_base_url (env : Env) : Tool PyVal :=
  fun t => (t, lookup_base_url env).

(** [await client.<method>(url, params=..., auth=..., timeout=30.0)] inside
    [async with httpx.AsyncClient() as client]. *)
Definition client_request (env : Env) (rq : Request) : Tool Response :=
  fun t =>
    let t' := {| log := log t; sent := sent t ++ [rq] |} in
    match http env rq with
    | HttpRaises message => (t', Raise (OtherException message))
    | HttpResponse r => (t', Return r)
    end.

Definition client_get (env : Env) (u : string) (p : option Dict) : Tool Response :=
  client_request env
    {| method := GET; url := u; params := p; auth := None; timeout := 30 |}.

Definition client_post (env : Env) (u : string) (a : string * string) : Tool Response :=
  client_request env
    {| method := POST; url := u; params := None; auth := Some a; timeout := 30 |}.

(** [response.raise_for_status()] *)
Definition raise_for_status (r : Response) : Tool unit :=
  if is_success r then ret tt
  else raise (HTTPStatusError (status_error_text r) (status_code r)).

(** [response.json()] *)
Definition response_json (r : Response) : Tool PyVal :=
  match json_result r with
  | inl message => raise (OtherException message)
  | inr v => ret v
  end.

(** [len(result) if isinstance(result, list) else 'unknown'], formatted. *)
Definition len_or_unknown (result : PyVal) : string :=
  match result with
  | PyList l => str_int (Z.of_nat (length l))
  | _ => "unknown"
  end.

(** [if a: params[k] = a] *)
Definition set_if (a : option string) (k : string) (p : Dict) : Dict :=
  match a with
  | Some s => if truthy a then dict_set p k (PyStr s) else p
  | None => p
  end.

(** ** The tools *)

Definition error_envelope (error_msg : string) : PyVal :=
  PyDict [("error", PyStr error_msg)].

(** The handler shared, up to its message prefix, by every tool but
    [quads_login]:
    [except Exception as e: error_msg = f"<prefix>{str(e)}";
     ctx.error(error_msg); return {"error": error_msg}]. *)
Definition except_Exception (ctx : option Context) (prefix : string)
    (e : PyException) : Tool PyVal :=
  let error_msg := prefix ++ str_exc e in
  ctx_error ctx error_msg ;;
  ret (error_envelope error_msg).

Definition quads_login (username password : string) (ctx : option Context)
    (env : Env) : Tool PyVal :=
  try_except
    (base_url <- resolve_base_url env ;;
     ctx_info ctx ("Logging in to QUADS API at " ++ str base_url) ;;
     response <- client_post env (str base_url ++ "/login/") (username, password) ;;
     raise_for_status response ;;
     result <- response_json response ;;
     ctx_info ctx "Successfully logged in to QUADS" ;;
     ret result)
    (fun e =>
       match e with
       | HTTPStatusError _ status =>
           let error_msg := "Login failed: HTTP " ++ str_int status in
           ctx_error ctx error_msg ;;
           ret (PyDict [("error", PyStr error_msg); ("status_code", PyInt status)])
       | OtherException _ =>
           let error_msg := "Login error: " ++ str_exc e in
           ctx_error ctx error_msg ;;
           ret (error_envelope error_msg)
       end).

Definition quads_get_clouds (ctx : option Context) (env : Env) : Tool PyVal :=
  try_except
    (base_url <- resolve_base_url env ;;
     ctx_info ctx "Fetching all clouds from QUADS" ;;
     response <- client_get env (str base_url ++ "/clouds/") None ;;
     raise_for_status response ;;
     result <- response_json response ;;
     ctx_info ctx ("Retrieved " ++ len_or_unknown result ++ " clouds") ;;
     ret (PyDict [("clouds", result)]))
    (except_Exception ctx "Failed to get clouds: ").

Definition quads_get_free_clouds (ctx : option Context) (env : Env) : Tool PyVal :=
  try_except
    (base_url <- resolve_base_url env ;;
     ctx_info ctx "Fetching free clouds from QUADS" ;;
     response <- client_get env (str base_url ++ "/clouds/free/") None ;;
     raise_for_status response ;;
     result <- response_json response ;;
     ctx_info ctx ("Retrieved " ++ len_or_unknown result ++ " free clouds") ;;
     ret (PyDict [("free_clouds", result)]))
    (except_Exception ctx "Failed to get free clouds: ").

Definition quads_get_hosts (name model host_type : option string)
    (broken : option bool) (ctx : option Context) (env : Env) : Tool PyVal :=
  try_except
    (base_url <- resolve_base_url env ;;
     let params := [] in
     let params := set_if name "name" params in
     let params := set_if model "model" params in
     let params := set_if host_type "host_type" params in
     let params :=
       match broken with
       | Some b => dict_set params "broken" (PyStr (lower (str_bool b)))
       | None => params
       end in
     ctx_info ctx ("Fetching hosts from QUADS with filters: " ++ str (PyDict params)) ;;
     response <- client_get env (str base_url ++ "/hosts/") (Some params) ;;
     raise_for_status response ;;
     result <- response_json response ;;
     ctx_info ctx ("Retrieved " ++ len_or_unknown result ++ " hosts") ;;
     ret (PyDict [("hosts", result); ("filters", PyDict params)]))
    (except_Exception ctx "Failed to get hosts: ").

Definition quads_get_host_details (hostname : string) (ctx : option Context)
    (env : Env) : Tool PyVal :=
  try_except
    (base_url <- resolve_base_url env ;;
     ctx_info ctx ("Fetching details for host: " ++ hostname) ;;
     response <- client_get env (str base_url ++ "/hosts/" ++ hostname ++ "/") None ;;
     raise_for_status response ;;
     result <- response_json response ;;
     ctx_info ctx ("Retrieved details for host " ++ hostname) ;;
     ret (PyDict [("host", result)]))
    (except_Exception ctx ("Failed to get host details for " ++ hostname ++ ": ")).

Definition quads_get_available_hosts (start end_ cloud : option string)
    (ctx : option Context) (env : Env) : Tool PyVal :=
  try_except
    (base_url <- resolve_base_url env ;;
     let params := [] in
     let params := set_if start "start" params in
     let params := set_if end_ "end" params in
     let params := set_if cloud "cloud" params in
     ctx_info ctx ("Fetching available hosts with parameters: " ++ str (PyDict params)) ;;
     response <- client_get env (str base_url ++ "/available/") (Some params) ;;
     raise_for_status response ;;
     result <- response_json response ;;
     ctx_info ctx ("Retrieved " ++ len_or_unknown result ++ " available hosts") ;;
     ret (PyDict [("available_hosts", result); ("parameters", PyDict params)]))
    (except_Exception ctx "Failed to get available hosts: ").

Definition quads_check_host_availability (hostname : string)
    (start end_ : option string) (ctx : option Context) (env : Env) : Tool PyVal :=
  try_except
    (base_url <- resolve_base_url env ;;
     let params := [] in
     let params := set_if start "start" params in
     let params := set_if end_ "end" params in
     ctx_info ctx ("Checking availability for host " ++ hostname
                   ++ " with parameters: " ++ str (PyDict params)) ;;
     response <- client_get env (str base_url ++ "/available/" ++ hostname ++ "/")
                            (Some params) ;;
     raise_for_status response ;;
     result <- response_json response ;;
     ctx_info ctx ("Checked availability for host " ++ hostname) ;;
     ret (PyDict [("hostname", PyStr hostname); ("availability", result);
                  ("parameters", PyDict params)]))
    (except_Exception ctx ("Failed to check host availability for " ++ hostname ++ ": ")).

Definition quads_get_schedules (ctx : option Context) (env : Env) : Tool PyVal :=
  try_except
    (base_url <- resolve_base_url env ;;
     ctx_info ctx "Fetching all schedules from QUADS" ;;
     response <- client_get env (str base_url ++ "/schedules/") None ;;
     raise_for_status response ;;
     result <- response_json response ;;
     ctx_info ctx ("Retrieved " ++ len_or_unknown result ++ " schedules") ;;
     ret (PyDict [("schedules", result)]))
    (except_Exception ctx "Failed to get schedules: ").

Definition quads_get_current_schedules (date host cloud : option string)
    (ctx : option Context) (env : Env) : Tool PyVal :=
  try_except
    (base_url <- resolve_base_url env ;;
     let params := [] in
     let params := set_if date "date" params in
     let params := set_if host "host" params in
     let params := set_if cloud "cloud" params in
     ctx_info ctx ("Fetching current schedules with parameters: " ++ str (PyDict params)) ;;
     response <- client_get env (str base_url ++ "/schedules/current/") (Some params) ;;
     raise_for_status response ;;
     result <- response_json response ;;
     ctx_info ctx "Retrieved current schedules" ;;
     ret (PyDict [("current_schedules", result); ("parameters", PyDict params)]))
    (except_Exception ctx "Failed to get current schedules: ").

Definition quads_get_assignments (ctx : option Context) (env : Env) : Tool PyVal :=
  try_except
    (base_url <- resolve_base_url env ;;
     ctx_info ctx "Fetching all assignments from QUADS" ;;
     response <- client_get env (str base_url ++ "/assignments/") None ;;
     raise_for_status response ;;
     result <- response_json response ;;
     ctx_info ctx "Retrieved assignments" ;;
     ret (PyDict [("assignments", result)]))
    (except_Exception ctx "Failed to get assignments: ").

Definition quads_get_active_assignments (cloud_name : option string)
    (ctx : option Context) (env : Env) : Tool PyVal :=
  try_except
    (base_url <- resolve_base_url env ;;
     u <- match cloud_name with
          | Some c =>
              if truthy cloud_name then
                ctx_info ctx ("Fetching active assignments for cloud: " ++ c) ;;
                ret (str base_url ++ "/assignments/active/" ++ c ++ "/")
              else
                ctx_info ctx "Fetching all active assignments" ;;
                ret (str base_url ++ "/assignments/active/")
          | None =>
              ctx_info ctx "Fetching all active assignments" ;;
              ret (str base_url ++ "/assignments/active/")
          end ;;
     response <- client_get env u None ;;
     raise_for_status response ;;
     result <- response_json response ;;
     ctx_info ctx "Retrieved active assignments" ;;
     ret (PyDict [("active_assignments", result);
                  ("cloud_filter", of_option cloud_name)]))
    (except_Exception ctx "Failed to get active assignments: ").

Definition quads_get_moves (date : option string) (ctx : option Context)
    (env : Env) : Tool PyVal :=
  try_except
    (base_url <- resolve_base_url env ;;
     let params := [] in
     let params := set_if date "date" params in
     ctx_info ctx ("Fetching moves with parameters: " ++ str (PyDict params)) ;;
     response <- client_get env (str base_url ++ "/moves/") (Some params) ;;
     raise_for_status response ;;
     result <- response_json response ;;
     ctx_info ctx ("Retrieved " ++ len_or_unknown result ++ " moves") ;;
     ret (PyDict [("moves", result); ("parameters", PyDict params)]))
    (except_Exception ctx "Failed to get moves: ").

Definition quads_get_version (ctx : option Context) (env : Env) : Tool PyVal :=
  try_except
    (base_url <- resolve_base_url env ;;
     ctx_info ctx "Fetching QUADS version" ;;
     response <- client_get env (str base_url ++ "/version/") None ;;
     raise_for_status response ;;
     result <- response_json response ;;
     ctx_info ctx "Retrieved QUADS version" ;;
     ret (PyDict [("version", result)]))
    (except_Exception ctx "Failed to get version: ").

(** ** The tool registry *)

(** A call of one of the tools registered with [@mcp.tool()], with its
    arguments other than [ctx]. *)
Inductive Invocation : Type :=
| Login (username password : string)
| GetClouds
| GetFreeClouds
| GetHosts (name model host_type : option string) (broken : option bool)
| GetHostDetails (hostname : string)
| GetAvailableHosts (start end_ cloud : option string)
| CheckHostAvailability (hostname : string) (start end_ : option string)
| GetSchedules
| GetCurrentSchedules (date host cloud : option string)
| GetAssignments
| GetActiveAssignments (cloud_name : option string)
| GetMoves (date : option string)
| GetVersion.

Definition tool_of (inv : Invocation) : option Context -> Env -> Tool PyVal :=
  match inv with
  | Login username password => quads_login username password
  | GetClouds => quads_get_clouds
  | GetFreeClouds => quads_get_free_clouds
  | GetHosts name model host_type broken => quads_get_hosts name model host_type broken
  | GetHostDetails hostname => quads_get_host_details hostname
  | GetAvailableHosts start end_ cloud => quads_get_available_hosts start end_ cloud
  | CheckHostAvailability hostname start end_ =>
      quads_check_host_availability hostname start end_
  | GetSchedules => quads_get_schedules
  | GetCurrentSchedules date host cloud => quads_get_current_schedules date host cloud
  | GetAssignments => quads_get_assignments
  | GetActiveAssignments cloud_name => quads_get_active_assignments cloud_name
  | GetMoves date => quads_get_moves date
  | GetVersion => quads_get_version
  end.

(** One tool invocation, from a fresh trace: the trace it leaves and how it
    completes, by returning a value to the protocol layer or by raising. *)
Definition invoke (inv : Invocation) (ctx : option Context) (env : Env)
    : Trace * Completion PyVal :=
  tool_of inv ctx env empty_trace.

Definition trace_of (o : Trace * Completion PyVal) : Trace := fst o.
Definition completion_of (o : Trace * Completion PyVal) : Completion PyVal := snd o.

(** ** Vocabulary of the properties *)



(** The value of query parameter [k] of a request, if it carries one. *)
Definition query_param (rq : Request) (k : string) : option PyVal :=
  match params rq with
  | Some p => dict_get p k
  | None => None
  end.


(** The text each tool puts before [str(e)] in its [except Exception]
    handler. *)
Definition failure_prefix (inv : Invocation) : string :=
  match inv with
  | Login _ _ => "Login error: "
  | GetClouds => "Failed to get clouds: "
  | GetFreeClouds => "Failed to get free clouds: "
  | GetHosts _ _ _ _ => "Failed to get hosts: "
  | GetHostDetails hostname => "Failed to get host details for " ++ hostname ++ ": "
  | GetAvailableHosts _ _ _ => "Failed to get available hosts: "
  | CheckHostAvailability hostname _ _ =>
      "Failed to check host availability for " ++ hostname ++ ": "
  | GetSchedules => "Failed to get schedules: "
  | GetCurrentSchedules _ _ _ => "Failed to get current schedules: "
  | GetAssignments => "Failed to get assignments: "
  | GetActiveAssignments _ => "Failed to get active assignments: "
  | GetMoves _ => "Failed to get moves: "
  | GetVersion => "Failed to get version: "
  end.


Definition is_set {A} (a : option A) : bool :=
  match a with
  | Some _ => true
  | None => false
  end.

(** The optional filter arguments of each tool: the query parameter an
    argument is sent as, and whether the call sets it (is not [None]). *)
Definition filter_arguments (inv : Invocation) : list (string * bool) :=
  match inv with
  | GetHosts name model host_type broken =>
      [("name", is_set name); ("model", is_set model);
       ("host_type", is_set host_type); ("broken", is_set broken)]
  | GetAvailableHosts start end_ cloud =>
      [("start", is_set start); ("end", is_set end_); ("cloud", is_set cloud)]
  | CheckHostAvailability _ start end_ =>
      [("start", is_set start); ("end", is_set end_)]
  | GetCurrentSchedules date host cloud =>
      [("date", is_set date); ("host", is_set host); ("cloud", is_set cloud)]
  | GetMoves date => [("date", is_set date)]
  | _ => []
  end.

(** An optional string argument with [""] read as [None]. *)
Definition blank_as_unset (a : option string) : option string :=
  match a with
  | Some s => if String.eqb s "" then None else Some s
  | None => None
  end.




(** No filter argument of the call is set. *)
Definition all_unset (inv : Invocation) : bool :=
  forallb (fun a => negb (snd a)) (filter_arguments inv).

(** The call with [""] read as [None] in every string filter argument. *)
Definition blank_filters (inv : Invocation) : Invocation :=
  match inv with
  | GetHosts name model host_type broken =>
      GetHosts (blank_as_unset name) (blank_as_unset model)
               (blank_as_unset host_type) broken
  | GetAvailableHosts start end_ cloud =>
      GetAvailableHosts (blank_as_unset start) (blank_as_unset end_)
                        (blank_as_unset cloud)
  | CheckHostAvailability hostname start end_ =>
      CheckHostAvailability hostname (blank_as_unset start) (blank_as_unset end_)
  | GetCurrentSchedules date host cloud =>
      GetCurrentSchedules (blank_as_unset date) (blank_as_unset host)
                          (blank_as_unset cloud)
  | GetMoves date => GetMoves (blank_as_unset date)
  | _ => inv
  end.

(** ** Sample collaborators *)

Definition ok_response (body : PyVal) : Response :=
  {| status_code := 200; status_error_text := ""; json_result := inr body |}.


(** An empty configuration and a remote that answers every request with
    the same response. *)
Definition env_answering (r : Response) : Env :=
  {| request_config := inr []; http := fun _ => HttpResponse r |}.

(** An empty configuration and a transport that fails every request. *)
Definition env_failing (message : string) : Env :=
  {| request_config := inr []; http := fun _ => HttpRaises message |}.

Definition two_free_clouds : PyVal := PyList [PyStr "cloud01"; PyStr "cloud02"].



Definition login_request (username password : string) : Request :=
  {| method := POST; url := default_base_url ++ "/login/";
     params := None; auth := Some (username, password); timeout := 30 |}.

(** ** Vocabulary of the further properties *)

(** The path each tool appends to the base URL. *)
Definition endpoint_path (inv : Invocation) : string :=
  match inv with
  | Login _ _ => "/login/"
  | GetClouds => "/clouds/"
  | GetFreeClouds => "/clouds/free/"
  | GetHosts _ _ _ _ => "/hosts/"
  | GetHostDetails hostname => "/hosts/" ++ hostname ++ "/"
  | GetAvailableHosts _ _ _ => "/available/"
  | CheckHostAvailability hostname _ _ => "/available/" ++ hostname ++ "/"
  | GetSchedules => "/schedules/"
  | GetCurrentSchedules _ _ _ => "/schedules/current/"
  | GetAssignments => "/assignments/"
  | GetActiveAssignments cloud_name =>
      match cloud_name with
      | Some c =>
          if String.eqb c "" then "/assignments/active/"
          else "/assignments/active/" ++ c ++ "/"
      | None => "/assignments/active/"
      end
  | GetMoves _ => "/moves/"
  | GetVersion => "/version/"
  end.

(** The string filter arguments of each tool: the query parameter an
    argument is sent as, and the argument. *)
Definition string_filters (inv : Invocation) : list (string * option string) :=
  match inv with
  | GetHosts name model host_type _ =>
      [("name", name); ("model", model); ("host_type", host_type)]
  | GetAvailableHosts start end_ cloud =>
      [("start", start); ("end", end_); ("cloud", cloud)]
  | CheckHostAvailability _ start end_ => [("start", start); ("end", end_)]
  | GetCurrentSchedules date host cloud =>
      [("date", date); ("host", host); ("cloud", cloud)]
  | GetMoves date => [("date", date)]
  | _ => []
  end.



(** The request was answered by a 2xx response whose body decodes to
    [body]. *)
Definition answered_with (env : Env) (rq : Request) (body : PyVal) : Prop :=
  exists r, http env rq = HttpResponse r
            /\ is_success r = true /\ json_result r = inr body.

(** A configuration whose [quads] section is [section], answered by [h]. *)
Definition env_configured (section : PyVal) (h : Request -> HttpOutcome) : Env :=
  {| request_config := inr [("quads", section)]; http := h |}.

Definition hosts_request (p : Dict) : Request :=
  {| method := GET; url := default_base_url ++ "/hosts/";
     params := Some p; auth := None; timeout := 30 |}.

Definition clouds_request : Request :=
  {| method := GET; url := default_base_url ++ "/clouds/";
     params := None; auth := None; timeout := 30 |}.

(** ** Proof automation *)

Ltac unfold_tool :=
  unfold invoke, tool_of, trace_of, completion_of,
    quads_login, quads_get_clouds, quads_get_free_clouds, quads_get_hosts,
    quads_get_host_details, quads_get_available_hosts,
    quads_check_host_availability, quads_get_schedules,
    quads_get_current_schedules, quads_get_assignments,
    quads_get_active_assignments, quads_get_moves, quads_get_version,
    try_except, except_Exception, bind, resolve_base_url, client_get,
    client_post, client_request, raise_for_status, response_json,
    ctx_info, ctx_error, attribute_error, emit, ret, raise, empty_trace.

Ltac step_tool env :=
  match goal with
  | |- context [if truthy ?a then _ else _] => destruct (truthy a) eqn:?
  | |- context [lookup_base_url env] => destruct (lookup_base_url env) eqn:?
  | |- context [match http env ?rq with _ => _ end] => destruct (http env rq) eqn:?
  | |- context [if is_success ?r then _ else _] => destruct (is_success r) eqn:?
  | |- context [match json_result ?r with _ => _ end] => destruct (json_result r) eqn:?
  end; cbn [fst snd log sent app].

(** Runs the tool in the goal along every path of its collaborators. *)
Ltac run_tool env :=
  unfold_tool; cbn [fst snd log sent app]; repeat step_tool env;
  repeat match goal with e : PyException |- _ => destruct e end;
  cbn [fst snd log sent app].

(** After a run, the hypotheses that name the request issued. *)
Ltac name_request :=
  intros;
  repeat match goal with
  | H : [] = _ :: _ |- _ => discriminate H
  | H : _ :: _ = [] |- _ => discriminate H
  | H : [?a] = [?b] |- _ =>
      let E := fresh "E" in
      assert (E : a = b) by exact (f_equal (fun l => hd a l) H);
      clear H; subst
  | H : In _ [] |- _ => destruct H
  | H : In _ [_] |- _ => destruct H as [H | []]; subst
  end.

(** Two answers recorded for one request are the same answer. *)
Ltac same_response :=
  match goal with
  | H1 : http ?e ?q = HttpResponse ?a, H2 : http ?e ?q = HttpResponse ?b |- _ =>
      assert (a = b) by congruence; subst
  end.

(** ** Properties *)

Example repr_params :
  repr (PyDict [("name", PyStr "host01"); ("broken", PyStr "true")])
  = "{'name': 'host01', 'broken': 'true'}".
Proof. reflexivity. Qed.

Example repr_quote :
  repr (PyStr "it's") = String double_quote ("it's" ++ String double_quote "").
Proof. reflexivity. Qed.

Example str_int_404 : str_int 404 = "404".
Proof. reflexivity. Qed.

Example lower_true : lower (str_bool true) = "true" /\ lower (str_bool false) = "false".
Proof. split; reflexivity. Qed.


(** With the diagnostics handle present, every invocation returns a value
    to the protocol layer. *)
Lemma invoke_returns (inv : Invocation) (c : Context) (env : Env) :
  exists v, completion_of (invoke inv (Some c) env) = Return v.
Proof.
  destruct inv; try destruct cloud_name; run_tool env;
    eexists; reflexivity.
Qed.

(** Every tool issues at most one request, whatever its handle and
    collaborators are. *)
Lemma at_most_one_request (inv : Invocation) (ctx : option Context) (env : Env) :
  (length (sent (trace_of (invoke inv ctx env))) <= 1)%nat.
Proof.
  destruct inv; try destruct cloud_name; destruct ctx; run_tool env;
    cbn [fst snd log sent app length]; lia.
Qed.

(** C9: every request a tool issues carries the timeout 30, and an
    invocation issues exactly one request once its handle is present and
    its base URL is resolved, none otherwise; whatever the transport
    answers (a timeout included), no second request follows. *)
Theorem C9_timeout_30_one_request (inv : Invocation) (ctx : option Context) (env : Env) :
  Forall (fun rq => timeout rq = 30) (sent (trace_of (invoke inv ctx env)))
  /\ length (sent (trace_of (invoke inv ctx env)))
     = match ctx, lookup_base_url env with
       | Some _, Return _ => 1%nat
       | _, _ => 0%nat
       end.
Proof.
  destruct inv; try destruct cloud_name; destruct ctx; run_tool env;
    cbn [fst snd log sent app length];
    (split; [repeat constructor | reflexivity]).
Qed.

(** C8, at the failing input: with the diagnostics handle absent, the
    [except] handler of every tool raises in its own [ctx.error] call, so
    the invocation completes by raising instead of returning. *)
Theorem C8_absent_handle_raises (inv : Invocation) (env : Env) :
  completion_of (invoke inv None env) = Raise (attribute_error PyNone "error").
Proof.
  destruct inv; try destruct cloud_name; run_tool env;
    reflexivity.
Qed.

(** C6: when the request of [quads_get_free_clouds] is answered by a 2xx
    response whose body decodes to [body], the tool returns exactly
    [{"free_clouds": body}]. *)
Theorem C6_free_clouds_wraps_body (ctx : option Context) (env : Env)
    (rq : Request) (r : Response) (body : PyVal) :
  sent (trace_of (invoke GetFreeClouds ctx env)) = [rq] ->
  http env rq = HttpResponse r ->
  is_success r = true ->
  json_result r = inr body ->
  completion_of (invoke GetFreeClouds ctx env) = Return (PyDict [("free_clouds", body)]).
Proof.
  destruct ctx; run_tool env; name_request; congruence.
Qed.

(** The body [["cloud01", "cloud02"]] answered with status 200. *)
Lemma C6_free_clouds_witness :
  completion_of (invoke GetFreeClouds (Some RequestContext)
                   (env_answering (ok_response two_free_clouds)))
  = Return (PyDict [("free_clouds", PyList [PyStr "cloud01"; PyStr "cloud02"])]).
Proof.
  apply (C6_free_clouds_wraps_body (Some RequestContext)
           (env_answering (ok_response two_free_clouds))
           {| method := GET; url := default_base_url ++ "/clouds/free/";
              params := None; auth := None; timeout := 30 |}
           (ok_response two_free_clouds) two_free_clouds); reflexivity.
Defined.











(** *** Query parameters *)

Lemma dict_get_set_same (p : Dict) (k : string) (v : PyVal) :
  dict_get (dict_set p k v) k = Some v.
Proof.
  induction p as [|[k' v'] p IH]; cbn.
  - now rewrite String.eqb_refl.
  - destruct (String.eqb k' k) eqn:E; cbn; now rewrite E.
Qed.

Lemma dict_get_set_other (p : Dict) (k k' : string) (v : PyVal) :
  k' <> k -> dict_get (dict_set p k' v) k = dict_get p k.
Proof.
  intro Hne. induction p as [|[k0 v0] p IH]; cbn.
  - apply String.eqb_neq in Hne. now rewrite Hne.
  - destruct (String.eqb k0 k') eqn:E; cbn.
    + apply String.eqb_eq in E; subst k0.
      apply String.eqb_neq in Hne. now rewrite Hne.
    + now rewrite IH.
Qed.

Lemma dict_get_set_if_other (a : option string) (p : Dict) (k k' : string) :
  k' <> k -> dict_get (set_if a k' p) k = dict_get p k.
Proof.
  intro Hne. unfold set_if. destruct a as [s|]; [ | reflexivity].
  destruct (truthy (Some s)); [ | reflexivity].
  now apply dict_get_set_other.
Qed.

Lemma set_if_unset (k : string) (p : Dict) : set_if None k p = p.
Proof. reflexivity. Qed.

Lemma set_if_blank (a : option string) (k : string) (p : Dict) :
  set_if (blank_as_unset a) k p = set_if a k p.
Proof.
  destruct a as [s|]; [ | reflexivity].
  unfold blank_as_unset, set_if, truthy.
  destruct (String.eqb s "") eqn:E; cbn; [reflexivity | now rewrite E].
Qed.

Lemma is_set_false {A : Type} (a : option A) : is_set a = false -> a = None.
Proof. destruct a; [discriminate | reflexivity]. Qed.

(** Looks a key up in the parameters a tool has built. *)
Ltac lookup_param :=
  cbn [query_param params];
  repeat match goal with
  | |- context [match ?b with Some _ => _ | None => _ end] => is_var b; destruct b
  end;
  repeat first
    [ rewrite dict_get_set_same
    | rewrite dict_get_set_other by (intro; discriminate)
    | rewrite dict_get_set_if_other by (intro; discriminate)
    | rewrite set_if_unset ];
  try reflexivity.

(** C4: an optional filter argument left unset does not occur among the
    query parameters of the request the tool issues; and when every filter
    argument of the call is unset (as in [quads_get_hosts()]), the
    parameter set of the request is empty. *)
Theorem C4_unset_filters_absent (inv : Invocation) (ctx : option Context)
    (env : Env) (k : string) (rq : Request) :
  In (k, false) (filter_arguments inv) ->
  In rq (sent (trace_of (invoke inv ctx env))) ->
  query_param rq k = None
  /\ (all_unset inv = true -> params rq = Some []).
Proof.
  destruct inv; cbn [filter_arguments In]; try solve [intros []];
    destruct ctx; run_tool env; intros Hk Hrq; name_request.
  all: split;
    [ repeat match goal with
      | H : _ \/ _ |- _ => destruct H as [H | H]
      | H : False |- _ => destruct H
      | H : (_, _) = (_, _) |- _ => injection H as <- H; apply is_set_false in H; subst
      end; lookup_param
    | unfold all_unset; cbn [filter_arguments forallb snd];
      repeat match goal with
      | a : option _ |- _ => destruct a; cbn [is_set negb andb]
      end;
      intro Hall; (discriminate Hall || reflexivity) ].
Qed.

(** [quads_get_hosts()] with no filter sends an empty parameter set. *)
Lemma C4_unset_filters_absent_witness :
  let rq := {| method := GET; url := default_base_url ++ "/hosts/";
               params := Some []; auth := None; timeout := 30 |} in
  sent (trace_of (invoke (GetHosts None None None None) (Some RequestContext)
                    (env_answering (ok_response (PyList [])))))
  = [rq]
  /\ query_param rq "broken" = None
  /\ params rq = Some [].
Proof.
  cbv zeta. split; [reflexivity | ].
  destruct (C4_unset_filters_absent (GetHosts None None None None)
              (Some RequestContext) (env_answering (ok_response (PyList [])))
              "broken"
              {| method := GET; url := default_base_url ++ "/hosts/";
                 params := Some []; auth := None; timeout := 30 |})
    as [Hq Hp].
  - cbn. right; right; right; left; reflexivity.
  - left; reflexivity.
  - split; [exact Hq | apply Hp; reflexivity].
Defined.

(** C5: when [quads_get_hosts] is called with [broken] set, the request it
    issues carries the query parameter [broken] with the lowercase text
    ["true"] or ["false"], hence neither ["True"], ["False"] nor ["1"]. *)
Theorem C5_broken_lowercase (name model host_type : option string) (b : bool)
    (ctx : option Context) (env : Env) (rq : Request) :
  In rq (sent (trace_of (invoke (GetHosts name model host_type (Some b)) ctx env))) ->
  query_param rq "broken" = Some (PyStr (if b then "true" else "false"))
  /\ query_param rq "broken" <> Some (PyStr "True")
  /\ query_param rq "broken" <> Some (PyStr "False")
  /\ query_param rq "broken" <> Some (PyStr "1").
Proof.
  assert (Hlow : lower (str_bool b) = if b then "true" else "false")
    by (destruct b; reflexivity).
  destruct ctx; run_tool env; name_request;
    cbn [query_param params]; rewrite dict_get_set_same, Hlow;
    destruct b; repeat split; discriminate.
Qed.

(** [quads_get_hosts(name="host01", broken=False)] sends [broken=false]. *)
Lemma C5_broken_lowercase_witness :
  let rq := {| method := GET; url := default_base_url ++ "/hosts/";
               params := Some [("name", PyStr "host01"); ("broken", PyStr "false")];
               auth := None; timeout := 30 |} in
  sent (trace_of (invoke (GetHosts (Some "host01") None None (Some false))
                    (Some RequestContext) (env_failing "timed out")))
  = [rq]
  /\ query_param rq "broken" = Some (PyStr "false").
Proof.
  cbv zeta. split; [reflexivity | ].
  apply (C5_broken_lowercase (Some "host01") None None false
           (Some RequestContext) (env_failing "timed out")).
  left; reflexivity.
Defined.

Lemma set_if_empty (k : string) (p : Dict) : set_if (Some "") k p = p.
Proof. reflexivity. Qed.

(** C10: an empty string in a string filter argument is treated as an
    unset argument: the invocation leaves the same trace and completes the
    same way, and once the handle is present and the base URL resolved the
    tool does issue its request, to its endpoint and without that query
    parameter; and [quads_get_active_assignments] with an empty
    [cloud_name] issues the request that an unset [cloud_name] issues: one
    [GET] of [/assignments/active/] under the base URL, none without
    handle or base URL. *)
Theorem C10_empty_string_is_unset (inv : Invocation) (ctx : option Context) (env : Env) :
  invoke (blank_filters inv) ctx env = invoke inv ctx env
  /\ sent (trace_of (invoke (GetActiveAssignments (Some "")) ctx env))
     = sent (trace_of (invoke (GetActiveAssignments None) ctx env))
  /\ Forall (fun rq => exists base_url,
               lookup_base_url env = Return base_url
               /\ url rq = str base_url ++ "/assignments/active/"
               /\ params rq = None)
       (sent (trace_of (invoke (GetActiveAssignments (Some "")) ctx env)))
  /\ sent (trace_of (invoke (GetActiveAssignments (Some "")) ctx env))
     = match ctx, lookup_base_url env with
       | Some _, Return base_url =>
           [{| method := GET; url := str base_url ++ "/assignments/active/";
               params := None; auth := None; timeout := 30 |}]
       | _, _ => []
       end
  /\ (forall c base_url k,
        ctx = Some c ->
        lookup_base_url env = Return base_url ->
        In (k, Some "") (string_filters inv) ->
        exists rq,
          sent (trace_of (invoke inv ctx env)) = [rq]
          /\ url rq = str base_url ++ endpoint_path inv
          /\ query_param rq k = None).
Proof.
  split; [ | split; [ | split; [ | split]]].
  - destruct inv; cbn [blank_filters]; try reflexivity;
      unfold invoke, tool_of, quads_get_hosts, quads_get_available_hosts,
        quads_check_host_availability, quads_get_current_schedules,
        quads_get_moves;
      now rewrite !set_if_blank.
  - unfold invoke, tool_of, quads_get_active_assignments.
    change (truthy (Some "")) with false. cbv iota.
    destruct ctx; run_tool env; reflexivity.
  - unfold invoke, tool_of, quads_get_active_assignments.
    change (truthy (Some "")) with false. cbv iota.
    destruct ctx; run_tool env; repeat constructor;
      eexists; repeat split; reflexivity.
  - unfold invoke, tool_of, quads_get_active_assignments.
    change (truthy (Some "")) with false. cbv iota.
    destruct ctx; run_tool env; reflexivity.
  - intros c base_url k -> Hl.
    destruct inv; cbn [string_filters In]; try solve [intros []];
      run_tool env; try discriminate Hl; injection Hl as ->; intro Hk;
      repeat match goal with
      | H : _ \/ _ |- _ => destruct H as [H | H]
      | H : False |- _ => destruct H
      | H : (_, _) = (_, _) |- _ => injection H as <- H; subst
      end;
      (eexists; split; [reflexivity | split; [reflexivity | ]]);
      rewrite ?set_if_empty; lookup_param.
Qed.

(** [quads_get_active_assignments("")] and [quads_get_hosts(name="",
    model="r640")] against a transport that times out. *)
Lemma C10_empty_string_is_unset_witness :
  sent (trace_of (invoke (GetActiveAssignments (Some "")) (Some RequestContext)
                    (env_failing "timed out")))
  = [{| method := GET; url := default_base_url ++ "/assignments/active/";
        params := None; auth := None; timeout := 30 |}]
  /\ exists rq,
       sent (trace_of (invoke (GetHosts (Some "") (Some "r640") None None)
                         (Some RequestContext) (env_failing "timed out")))
       = [rq]
       /\ url rq = default_base_url ++ "/hosts/"
       /\ query_param rq "name" = None.
Proof.
  destruct (C10_empty_string_is_unset (GetHosts (Some "") (Some "r640") None None)
              (Some RequestContext) (env_failing "timed out"))
    as [_ [_ [_ [Hactive Hfilter]]]].
  split.
  - exact Hactive.
  - apply (Hfilter RequestContext (PyStr default_base_url) "name").
    + reflexivity.
    + reflexivity.
    + left; reflexivity.
Defined.

Example empty_name_omitted :
  sent (trace_of (invoke (GetHosts (Some "") (Some "r640") None None)
                    (Some RequestContext) (env_failing "timed out")))
  = [{| method := GET; url := default_base_url ++ "/hosts/";
        params := Some [("model", PyStr "r640")]; auth := None; timeout := 30 |}].
Proof. reflexivity. Qed.

Example empty_cloud_name_collection :
  sent (trace_of (invoke (GetActiveAssignments (Some "")) (Some RequestContext)
                    (env_failing "timed out")))
  = [{| method := GET; url := default_base_url ++ "/assignments/active/";
        params := None; auth := None; timeout := 30 |}].
Proof. reflexivity. Qed.

Example absent_handle_get_hosts :
  invoke (GetHosts None None None None) None (env_answering (ok_response (PyList [])))
  = ({| log := []; sent := [] |},
     Raise (OtherException "'NoneType' object has no attribute 'error'")).
Proof. reflexivity. Qed.

Example timeout_sends_once :
  let o := invoke GetClouds (Some RequestContext) (env_failing "timed out") in
  length (sent (trace_of o)) = 1%nat
  /\ completion_of o = Return (PyDict [("error", PyStr "Failed to get clouds: timed out")]).
Proof. split; reflexivity. Qed.

(** ** Further properties *)

(** *** The request a tool builds *)

(** Splits on whether the cloud name of a call is empty, the way the
    tool's truthiness test does. *)
Ltac split_cloud :=
  try match goal with
  | cloud_name : option string |- _ =>
      destruct cloud_name as [cloud_name|];
      [ unfold invoke, tool_of, quads_get_active_assignments, truthy;
        cbn [endpoint_path];
        destruct (String.eqb cloud_name "") eqn:?; cbn [negb] | ]
  end.

(** What every request a tool issues looks like. *)
Lemma sent_request_shape (inv : Invocation) (ctx : option Context) (env : Env)
    (rq : Request) :
  In rq (sent (trace_of (invoke inv ctx env))) ->
  exists base_url,
    lookup_base_url env = Return base_url
    /\ url rq = str base_url ++ endpoint_path inv
    /\ method rq = match inv with Login _ _ => POST | _ => GET end
    /\ auth rq = match inv with
                 | Login username password => Some (username, password)
                 | _ => None
                 end.
Proof.
  destruct inv; split_cloud; destruct ctx; run_tool env; name_request;
    eexists; repeat split; reflexivity.
Qed.

Lemma lookup_configured (env : Env) (config d : Dict) (v : PyVal) :
  request_config env = inr config ->
  dict_get config "quads" = Some (PyDict d) ->
  dict_get d "base_url" = Some v ->
  lookup_base_url env = Return v.
Proof.
  intros Hc Hq Hb. unfold lookup_base_url. rewrite Hc.
  unfold dict_get_default. rewrite Hq. cbn [py_get].
  unfold dict_get_default. now rewrite Hb.
Qed.

Lemma lookup_default (env : Env) (config : Dict) :
  request_config env = inr config ->
  dict_get config "quads" = None
  \/ (exists d, dict_get config "quads" = Some (PyDict d)
                /\ dict_get d "base_url" = None) ->
  lookup_base_url env = Return (PyStr default_base_url).
Proof.
  intros Hc [Hq | [d [Hq Hb]]]; unfold lookup_base_url; rewrite Hc;
    unfold dict_get_default; rewrite Hq; cbn [py_get]; [reflexivity | ].
  unfold dict_get_default. now rewrite Hb.
Qed.

(** X1: each tool sends its request to the configured [quads.base_url],
    formatted as [str] formats it, followed by the path of its endpoint;
    a host name or a non-empty cloud name is put into the path as it is. *)
Theorem X1_request_url (inv : Invocation) (ctx : option Context) (env : Env)
    (config d : Dict) (v : PyVal) (rq : Request) :
  request_config env = inr config ->
  dict_get config "quads" = Some (PyDict d) ->
  dict_get d "base_url" = Some v ->
  In rq (sent (trace_of (invoke inv ctx env))) ->
  url rq = str v ++ endpoint_path inv.
Proof.
  intros Hc Hq Hb Hrq.
  destruct (sent_request_shape inv ctx env rq Hrq) as [b [Hl [Hu _]]].
  rewrite (lookup_configured env config d v Hc Hq Hb) in Hl.
  injection Hl as <-. exact Hu.
Qed.

(** The host [r640/a] under a configured base URL. *)
Lemma X1_request_url_witness :
  let env := env_configured (PyDict [("base_url", PyStr "http://lab/api")])
               (fun _ => HttpRaises "timed out") in
  let rq := {| method := GET; url := "http://lab/api/hosts/r640/a/";
               params := None; auth := None; timeout := 30 |} in
  sent (trace_of (invoke (GetHostDetails "r640/a") (Some RequestContext) env)) = [rq]
  /\ url rq = "http://lab/api" ++ "/hosts/" ++ "r640/a" ++ "/".
Proof.
  cbv zeta. split; [reflexivity | ].
  apply (X1_request_url (GetHostDetails "r640/a") (Some RequestContext)
           (env_configured (PyDict [("base_url", PyStr "http://lab/api")])
              (fun _ => HttpRaises "timed out"))
           [("quads", PyDict [("base_url", PyStr "http://lab/api")])]
           [("base_url", PyStr "http://lab/api")] (PyStr "http://lab/api"));
    try reflexivity.
  left; reflexivity.
Defined.

(** X2: when the configuration has no [quads] section, or the section has
    no [base_url], every request goes to the default base URL
    [https://quads.example.com/api/v3]. *)
Theorem X2_default_base_url (inv : Invocation) (ctx : option Context) (env : Env)
    (config : Dict) (rq : Request) :
  request_config env = inr config ->
  dict_get config "quads" = None
  \/ (exists d, dict_get config "quads" = Some (PyDict d)
                /\ dict_get d "base_url" = None) ->
  In rq (sent (trace_of (invoke inv ctx env))) ->
  url rq = "https://quads.example.com/api/v3" ++ endpoint_path inv.
Proof.
  intros Hc Hq Hrq.
  destruct (sent_request_shape inv ctx env rq Hrq) as [b [Hl [Hu _]]].
  rewrite (lookup_default env config Hc Hq) in Hl.
  injection Hl as <-. exact Hu.
Qed.

(** An empty configuration. *)
Lemma X2_default_base_url_witness :
  sent (trace_of (invoke GetClouds (Some RequestContext) (env_failing "timed out")))
  = [clouds_request]
  /\ url clouds_request = "https://quads.example.com/api/v3" ++ "/clouds/".
Proof.
  split; [reflexivity | ].
  apply (X2_default_base_url GetClouds (Some RequestContext)
           (env_failing "timed out") [] clouds_request).
  - reflexivity.
  - left; reflexivity.
  - left; reflexivity.
Defined.

(** X3: only [quads_login] posts and only it carries credentials, as basic
    authentication; every other tool issues a [GET] without credentials. *)
Theorem X3_method_and_credentials (inv : Invocation) (ctx : option Context)
    (env : Env) (rq : Request) :
  In rq (sent (trace_of (invoke inv ctx env))) ->
  match inv with
  | Login username password =>
      method rq = POST /\ auth rq = Some (username, password) /\ params rq = None
  | _ => method rq = GET /\ auth rq = None
  end.
Proof.
  destruct inv; try destruct cloud_name; destruct ctx; run_tool env; name_request;
    repeat split.
Qed.

Lemma X3_method_and_credentials_witness :
  method (login_request "user" "secret") = POST
  /\ auth (login_request "user" "secret") = Some ("user", "secret")
  /\ params (login_request "user" "secret") = None.
Proof.
  apply (X3_method_and_credentials (Login "user" "secret") (Some RequestContext)
           (env_failing "timed out") (login_request "user" "secret")).
  left; reflexivity.
Defined.

(** *** Configuration failures *)

Lemma lookup_failure_outcome (inv : Invocation) (c : Context) (env : Env)
    (text : string) :
  lookup_base_url env = Raise (OtherException text) ->
  invoke inv (Some c) env
  = ({| log := [(ERROR, failure_prefix inv ++ text)]; sent := [] |},
     Return (error_envelope (failure_prefix inv ++ text))).
Proof.
  intro Hl.
  destruct inv; unfold_tool; rewrite Hl; reflexivity.
Qed.

(** X4: when the request context cannot be resolved, the tool issues no
    request and makes no informational call; it reports the failure once,
    at error level, and returns it as the error envelope. *)
Theorem X4_context_failure (inv : Invocation) (c : Context) (env : Env)
    (message : string) :
  request_config env = inl message ->
  invoke inv (Some c) env
  = ({| log := [(ERROR, failure_prefix inv ++ message)]; sent := [] |},
     Return (PyDict [("error", PyStr (failure_prefix inv ++ message))])).
Proof.
  intro Hc. apply lookup_failure_outcome.
  unfold lookup_base_url. now rewrite Hc.
Qed.

Lemma X4_context_failure_witness :
  invoke GetVersion (Some RequestContext)
    {| request_config := inl "No request context";
       http := fun _ => HttpResponse (ok_response PyNone) |}
  = ({| log := [(ERROR, "Failed to get version: No request context")]; sent := [] |},
     Return (PyDict [("error", PyStr "Failed to get version: No request context")])).
Proof.
  apply (X4_context_failure GetVersion RequestContext
           {| request_config := inl "No request context";
              http := fun _ => HttpResponse (ok_response PyNone) |}
           "No request context").
  reflexivity.
Defined.

(** X5: when the [quads] entry of the configuration is not a mapping, the
    [get] on it fails inside the [try]: the tool issues no request and
    returns the attribute error as its error envelope. *)
Theorem X5_section_not_a_mapping (inv : Invocation) (c : Context) (env : Env)
    (config : Dict) (v : PyVal) :
  request_config env = inr config ->
  dict_get config "quads" = Some v ->
  (forall d, v <> PyDict d) ->
  invoke inv (Some c) env
  = ({| log := [(ERROR, failure_prefix inv ++ "'" ++ type_name v
                          ++ "' object has no attribute 'get'")];
        sent := [] |},
     Return (PyDict [("error", PyStr (failure_prefix inv ++ "'" ++ type_name v
                                        ++ "' object has no attribute 'get'"))])).
Proof.
  intros Hc Hq Hv. apply lookup_failure_outcome.
  unfold lookup_base_url. rewrite Hc. unfold dict_get_default. rewrite Hq.
  destruct v; try reflexivity. now contradiction (Hv d).
Qed.

(** A configuration with [quads: null]. *)
Lemma X5_section_not_a_mapping_witness :
  invoke GetClouds (Some RequestContext)
    (env_configured PyNone (fun _ => HttpResponse (ok_response PyNone)))
  = ({| log := [(ERROR, "Failed to get clouds: "
                          ++ "'NoneType' object has no attribute 'get'")];
        sent := [] |},
     Return (PyDict [("error", PyStr ("Failed to get clouds: "
                        ++ "'NoneType' object has no attribute 'get'"))])).
Proof.
  apply (X5_section_not_a_mapping GetClouds RequestContext
           (env_configured PyNone (fun _ => HttpResponse (ok_response PyNone)))
           [("quads", PyNone)] PyNone).
  - reflexivity.
  - reflexivity.
  - intros d H; discriminate H.
Defined.

(** X6: with the diagnostics handle absent a tool never reaches its HTTP
    call: no request is issued and no message is recorded. *)
Theorem X6_absent_handle_no_effect (inv : Invocation) (env : Env) :
  trace_of (invoke inv None env) = empty_trace.
Proof.
  destruct inv; try destruct cloud_name; run_tool env; reflexivity.
Qed.

(** *** Query parameters, continued *)

Lemma dict_get_set_if_same (s : string) (p : Dict) (k : string) :
  s <> "" -> dict_get (set_if (Some s) k p) k = Some (PyStr s).
Proof.
  intro Hs. unfold set_if, truthy.
  apply String.eqb_neq in Hs. rewrite Hs. cbn [negb].
  apply dict_get_set_same.
Qed.

Lemma dict_get_in_keys (p : Dict) (k : string) (v : PyVal) :
  dict_get p k = Some v -> In k (keys p).
Proof.
  induction p as [|[k' v'] p IH]; cbn; [discriminate | ].
  destruct (String.eqb_spec k' k); [now left | intro H; right; now apply IH].
Qed.

Lemma keys_dict_set (p : Dict) (k k' : string) (v : PyVal) :
  In k (keys (dict_set p k' v)) -> k = k' \/ In k (keys p).
Proof.
  induction p as [|[k0 v0] p IH]; cbn.
  - intros [H | []]; now left.
  - destruct (String.eqb k0 k'); cbn; intros [H | H]; auto.
    destruct (IH H); auto.
Qed.

Lemma keys_set_if (a : option string) (p : Dict) (k k' : string) :
  In k (keys (set_if a k' p)) -> k = k' \/ In k (keys p).
Proof.
  unfold set_if. destruct a as [s|]; [ | now right].
  destruct (truthy (Some s)); [apply keys_dict_set | now right].
Qed.

(** X7: a string filter argument that is set to a non-empty text is sent
    as the query parameter of its name, with that text unchanged. *)
Theorem X7_set_filter_forwarded (inv : Invocation) (ctx : option Context)
    (env : Env) (k s : string) (rq : Request) :
  In (k, Some s) (string_filters inv) ->
  s <> "" ->
  In rq (sent (trace_of (invoke inv ctx env))) ->
  query_param rq k = Some (PyStr s).
Proof.
  destruct inv; cbn [string_filters In]; try solve [intros []];
    destruct ctx; run_tool env; intros Hk Hs Hrq; name_request;
    repeat match goal with
    | H : _ \/ _ |- _ => destruct H as [H | H]
    | H : False |- _ => destruct H
    | H : (_, _) = (_, _) |- _ => injection H as <- H; subst
    end;
    cbn [query_param params];
    repeat match goal with
    | |- context [match ?b with Some _ => _ | None => _ end] => is_var b; destruct b
    end;
    repeat first
      [ rewrite dict_get_set_if_same by assumption
      | rewrite dict_get_set_other by (intro; discriminate)
      | rewrite dict_get_set_if_other by (intro; discriminate) ];
    reflexivity.
Qed.

Lemma X7_set_filter_forwarded_witness :
  query_param (hosts_request [("model", PyStr "R640 (gen 2)"); ("broken", PyStr "true")])
    "model"
  = Some (PyStr "R640 (gen 2)").
Proof.
  apply (X7_set_filter_forwarded (GetHosts None (Some "R640 (gen 2)") None (Some true))
           (Some RequestContext) (env_failing "timed out")).
  - right; left; reflexivity.
  - intro H; discriminate H.
  - left; reflexivity.
Defined.

(** X8: the query parameters of a request hold no key besides the names of
    the tool's filter arguments. *)
Theorem X8_only_filter_names_sent (inv : Invocation) (ctx : option Context)
    (env : Env) (k : string) (v : PyVal) (rq : Request) :
  In rq (sent (trace_of (invoke inv ctx env))) ->
  query_param rq k = Some v ->
  In k (map fst (filter_arguments inv)).
Proof.
  destruct inv; try destruct cloud_name; destruct ctx; run_tool env;
    intros Hrq Hq; name_request; cbn [query_param params] in Hq;
    try discriminate Hq;
    apply dict_get_in_keys in Hq;
    repeat match goal with
    | H : context [match ?b with Some _ => _ | None => _ end] |- _ =>
        is_var b; destruct b
    end;
    repeat match goal with
    | H : In _ (keys (dict_set _ _ _)) |- _ =>
        apply keys_dict_set in H; destruct H as [-> | H]
    | H : In _ (keys (set_if _ _ _)) |- _ =>
        apply keys_set_if in H; destruct H as [-> | H]
    | H : In _ (keys []) |- _ => destruct H
    end;
    cbn; tauto.
Qed.

Lemma X8_only_filter_names_sent_witness :
  In "end" (map fst (filter_arguments (GetAvailableHosts None (Some "2026-01-31") None))).
Proof.
  apply (X8_only_filter_names_sent (GetAvailableHosts None (Some "2026-01-31") None)
           (Some RequestContext) (env_failing "timed out") "end"
           (PyStr "2026-01-31")
           {| method := GET; url := default_base_url ++ "/available/";
              params := Some [("end", PyStr "2026-01-31")];
              auth := None; timeout := 30 |}).
  - left; reflexivity.
  - reflexivity.
Defined.

(** *** Successful answers *)

(** From [answered_with], the facts a run is compared with. *)
Ltac use_answer :=
  match goal with
  | H : answered_with _ _ _ |- _ => destruct H as [? [? [? ?]]]
  end;
  try congruence;
  same_response;
  match goal with
  | H1 : json_result ?r = _, H2 : json_result ?r = _ |- _ =>
      rewrite H1 in H2; try discriminate H2; injection H2 as H2; subst
  end.



(** X10: on a 2xx answer [quads_login] returns the decoded body itself,
    unwrapped, whatever it is. *)
Theorem X10_login_returns_body (username password : string) (ctx : option Context)
    (env : Env) (rq : Request) (body : PyVal) :
  sent (trace_of (invoke (Login username password) ctx env)) = [rq] ->
  answered_with env rq body ->
  completion_of (invoke (Login username password) ctx env) = Return body.
Proof.
  destruct ctx; run_tool env; name_request; use_answer; reflexivity.
Qed.

(** A token answered as a bare string. *)
Lemma X10_login_returns_body_witness :
  completion_of (invoke (Login "user" "secret") (Some RequestContext)
                   (env_answering (ok_response (PyStr "token-1"))))
  = Return (PyStr "token-1").
Proof.
  apply (X10_login_returns_body "user" "secret" (Some RequestContext)
           (env_answering (ok_response (PyStr "token-1")))
           (login_request "user" "secret")).
  - reflexivity.
  - exists (ok_response (PyStr "token-1")). repeat split.
Defined.



(** X12: [quads_get_active_assignments] returns its [cloud_name] argument
    as given under [cloud_filter]: [None] for an unset argument, and the
    empty text for an empty one, although an empty name is routed like an
    unset one. *)
Theorem X12_cloud_filter_echoed (cloud_name : option string) (ctx : option Context)
    (env : Env) (rq : Request) (body : PyVal) :
  sent (trace_of (invoke (GetActiveAssignments cloud_name) ctx env)) = [rq] ->
  answered_with env rq body ->
  completion_of (invoke (GetActiveAssignments cloud_name) ctx env)
  = Return (PyDict [("active_assignments", body);
                    ("cloud_filter", of_option cloud_name)]).
Proof.
  destruct cloud_name; destruct ctx; run_tool env; name_request; use_answer;
    reflexivity.
Qed.

Lemma X12_cloud_filter_echoed_witness :
  completion_of (invoke (GetActiveAssignments (Some "")) (Some RequestContext)
                   (env_answering (ok_response (PyList []))))
  = Return (PyDict [("active_assignments", PyList []); ("cloud_filter", PyStr "")]).
Proof.
  apply (X12_cloud_filter_echoed (Some "") (Some RequestContext)
           (env_answering (ok_response (PyList [])))
           {| method := GET; url := default_base_url ++ "/assignments/active/";
              params := None; auth := None; timeout := 30 |}).
  - reflexivity.
  - exists (ok_response (PyList [])). repeat split.
Defined.

(** X13: [quads_check_host_availability] returns the host name it was
    asked about under [hostname], beside the body under [availability]. *)
Theorem X13_hostname_echoed (hostname : string) (start end_ : option string)
    (ctx : option Context) (env : Env) (rq : Request) (body : PyVal) :
  sent (trace_of (invoke (CheckHostAvailability hostname start end_) ctx env)) = [rq] ->
  answered_with env rq body ->
  exists d,
    completion_of (invoke (CheckHostAvailability hostname start end_) ctx env)
    = Return (PyDict d)
    /\ dict_get d "hostname" = Some (PyStr hostname)
    /\ dict_get d "availability" = Some body
    /\ keys d = ["hostname"; "availability"; "parameters"].
Proof.
  destruct ctx; run_tool env; name_request; use_answer;
    eexists; repeat split.
Qed.

Lemma X13_hostname_echoed_witness :
  exists d,
    completion_of (invoke (CheckHostAvailability "host01" None None)
                     (Some RequestContext) (env_answering (ok_response (PyBool true))))
    = Return (PyDict d)
    /\ dict_get d "hostname" = Some (PyStr "host01")
    /\ dict_get d "availability" = Some (PyBool true)
    /\ keys d = ["hostname"; "availability"; "parameters"].
Proof.
  apply (X13_hostname_echoed "host01" None None (Some RequestContext)
           (env_answering (ok_response (PyBool true)))
           {| method := GET; url := default_base_url ++ "/available/host01/";
              params := Some []; auth := None; timeout := 30 |}).
  - reflexivity.
  - exists (ok_response (PyBool true)). repeat split.
Defined.


